(** * Verification model of the federated audio downloader (src/main.py)

    A shallow embedding of [download_audio_federated], of the AI helpers
    [get_working_gemini_response], [transcribe_audio],
    [generate_study_notes], [chat_with_video] and of the [/generate] and
    [/chat] endpoints.  Python exceptions are an explicit result type;
    the module-level state the code touches (the two mirror lists that
    [random.shuffle] permutes in place, the random source, the files on
    disk and the HTTP requests issued) is threaded through a state monad. *)

From Stdlib Require Import String Ascii ZArith.
From stdpp Require Import base list strings gmap.

Open Scope string_scope.
Set Warnings "-register-all -abstract-large-number".

(* ------------------------------------------------------------------ *)
(** ** Python values *)

(** Exceptions raised by the code or by the libraries it calls.  All of
    them are subclasses of [Exception], so an [except Exception] clause
    catches every one. *)
Inductive exn :=
  | NameError (name : string)
  | IndexError
  | KeyError
  | TypeError
  | AttributeError
  | ValueError
  | JSONDecodeError
  | RequestException
  | HTTPError.

Inductive pyres (A : Type) :=
  | Ok (a : A)
  | Raise (e : exn).
Arguments Ok {A} a.
Arguments Raise {A} e.

(** Decoded JSON, as [resp.json()] returns it. *)
Inductive json :=
  | JNull
  | JBool (b : bool)
  | JNum (z : Z)
  | JStr (s : string)
  | JArr (l : list json)
  | JObj (fields : list (string * json)).

(** Python truthiness of a decoded JSON value. *)
Definition truthy (v : json) : bool :=
  match v with
  | JNull => false
  | JBool b => b
  | JNum z => negb (Z.eqb z 0)
  | JStr s => negb (String.eqb s "")
  | JArr l => negb (length l =? 0)%nat
  | JObj fs => negb (length fs =? 0)%nat
  end.

(** [d.get(k, default)] on a dict built by [json.loads]: with duplicate
    keys the last binding wins. *)
Definition dict_get (fs : list (string * json)) (k : string) (default : json) : json :=
  match List.find (fun p => String.eqb p.1 k) (List.rev fs) with
  | Some (_, v) => v
  | None => default
  end.

(** [v[0]] *)
Definition py_index0 (v : json) : pyres json :=
  match v with
  | JArr (x :: _) => Ok x
  | JArr [] => Raise IndexError
  | JStr s =>
      match s with
      | String c _ => Ok (JStr (String c EmptyString))
      | EmptyString => Raise IndexError
      end
  | JObj _ => Raise KeyError
  | _ => Raise TypeError
  end.

(** [d[k]] on a dict *)
Definition dict_index (v : json) (k : string) : pyres json :=
  match v with
  | JObj fs =>
      match List.find (fun p => String.eqb p.1 k) (List.rev fs) with
      | Some (_, x) => Ok x
      | None => Raise KeyError
      end
  | JArr _ | JStr _ => Raise TypeError
  | _ => Raise TypeError
  end.

(** [s.rstrip("/")] *)
Definition rstrip_slash (s : string) : string :=
  let fix drop (l : list ascii) : list ascii :=
    match l with
    | c :: r => if Ascii.eqb c "/"%char then drop r else l
    | [] => []
    end in
  string_of_list_ascii (List.rev (drop (List.rev (list_ascii_of_string s)))).

(** [os.path.join(a, b)] on POSIX *)
Definition os_path_join (a b : string) : string :=
  if String.prefix "/" b then b
  else if String.eqb a "" then b
  else if String.eqb (substring (String.length a - 1) 1 a) "/" then a ++ b
  else a ++ "/" ++ b.

(* ------------------------------------------------------------------ *)
(** ** [random.shuffle] *)

(** [x[i], x[j] = x[j], x[i]]: the right-hand side is read first, then
    [x[i]] and [x[j]] are assigned in that order. *)
Definition swap {A} (i j : nat) (x : list A) : list A :=
  match x !! i, x !! j with
  | Some xi, Some xj => <[j := xi]> (<[i := xj]> x)
  | _, _ => x
  end.

(** The random source is a stream of draws; [_randbelow(n)] consumes one
    draw and reduces it into [0 .. n-1]. *)
Definition randbelow (n : nat) (rs : list nat) : nat * list nat :=
  match rs with
  | r :: rs' => (r mod n, rs')
  | [] => (0%nat, [])
  end.

(** [for i in reversed(range(1, len(x))): j = randbelow(i + 1); swap] *)
Fixpoint shuffle_from {A} (i : nat) (x : list A) (rs : list nat) : list A * list nat :=
  match i with
  | O => (x, rs)
  | S i' =>
      let '(j, rs') := randbelow (S i) rs in
      shuffle_from i' (swap i j x) rs'
  end.

Definition py_shuffle {A} (x : list A) (rs : list nat) : list A * list nat :=
  shuffle_from (pred (length x)) x rs.

(* ------------------------------------------------------------------ *)
(** ** The world the downloader runs in *)

(** An HTTP response: its status code and the result of [resp.json()]
    ([None] when the body is not JSON and [resp.json()] raises). *)
Record response := mk_response { status_code : Z; body : option json }.

(** Outcome of [with requests.get(link, stream=True, timeout=30) as r:
    r.raise_for_status(); with open(output_path, 'wb') as f: ...]:
    - [TRefused e]: the GET or [raise_for_status] raises before the file
      is opened;
    - [TPartial n e]: the file is opened (truncated), [n] bytes are
      written, then the transfer raises;
    - [TDone n]: the file is written completely with [n] bytes. *)
Inductive transfer :=
  | TRefused (e : exn)
  | TPartial (n : nat) (e : exn)
  | TDone (n : nat).

(** The remote services, as seen from one call.  [post_json url payload]
    is [requests.post(url, json=payload, ...)], [get_json url] is
    [requests.get(url, timeout=6)] and [stream link] the streamed download. *)
Record net := mk_net {
  post_json : string -> json -> pyres response;
  get_json : string -> pyres response;
  stream : json -> transfer
}.

(** The HTTP requests issued, in order. *)
Inductive request :=
  | HttpPost (url : string) (payload : json)
  | HttpGet (url : string)
  | StreamGet (link : json).

(** Module-level state: the global lists [COBALT_INSTANCES] and
    [PIPED_INSTANCES], the random source of [random.shuffle], the files on
    disk (path to size in bytes) and the log of requests. *)
Record pystate := mk_pystate {
  cobalt_instances : list string;
  piped_instances : list string;
  rng : list nat;
  disk : gmap string nat;
  requests : list request
}.

(** ** The state and exception monad *)

Definition PM (A : Type) : Type := pystate -> pyres A * pystate.

Definition pret {A} (a : A) : PM A := fun s => (Ok a, s).

Definition pbind {A B} (m : PM A) (f : A -> PM B) : PM B := fun s =>
  match m s with
  | (Ok a, s') => f a s'
  | (Raise e, s') => (Raise e, s')
  end.

Notation "x <- m ;; k" := (pbind m (fun x => k))
  (at level 100, m at next level, right associativity).

Definition raise {A} (e : exn) : PM A := fun s => (Raise e, s).

Definition lift {A} (r : pyres A) : PM A := fun s => (r, s).

Definition gets {A} (f : pystate -> A) : PM A := fun s => (Ok (f s), s).

Definition modify (f : pystate -> pystate) : PM unit := fun s => (Ok tt, f s).

Definition set_cobalt (l : list string) (s : pystate) : pystate :=
  mk_pystate l (piped_instances s) (rng s) (disk s) (requests s).
Definition set_piped (l : list string) (s : pystate) : pystate :=
  mk_pystate (cobalt_instances s) l (rng s) (disk s) (requests s).
Definition set_rng (rs : list nat) (s : pystate) : pystate :=
  mk_pystate (cobalt_instances s) (piped_instances s) rs (disk s) (requests s).
Definition set_disk (d : gmap string nat) (s : pystate) : pystate :=
  mk_pystate (cobalt_instances s) (piped_instances s) (rng s) d (requests s).
Definition add_request (r : request) (s : pystate) : pystate :=
  mk_pystate (cobalt_instances s) (piped_instances s) (rng s) (disk s)
    (requests s ++ [r]).

(** [try: body except Exception: continue]: an exception raised by the
    body is swallowed, the effects it had before raising are kept. *)
Definition try_continue {A} (m : PM (option A)) : PM (option A) := fun s =>
  match m s with
  | (Ok v, s') => (Ok v, s')
  | (Raise _, s') => (Ok None, s')
  end.

(** [for x in l: try: (return if found) except Exception: continue],
    then fall through with [None]. *)
Fixpoint try_each {A B} (attempt : A -> PM (option B)) (l : list A) : PM (option B) :=
  match l with
  | [] => pret None
  | x :: r =>
      res <- try_continue (attempt x);;
      match res with
      | Some p => pret (Some p)
      | None => try_each attempt r
      end
  end.

(** [random.shuffle(COBALT_INSTANCES)] and [random.shuffle(PIPED_INSTANCES)]:
    in-place permutation of the global list. *)
Definition shuffle_cobalt : PM unit := fun s =>
  let '(l, rs) := py_shuffle (cobalt_instances s) (rng s) in
  (Ok tt, set_rng rs (set_cobalt l s)).
Definition shuffle_piped : PM unit := fun s =>
  let '(l, rs) := py_shuffle (piped_instances s) (rng s) in
  (Ok tt, set_rng rs (set_piped l s)).

(** [if os.path.exists(p): os.remove(p)] *)
Definition remove_if_exists (p : string) : PM unit :=
  modify (fun s => set_disk (delete p (disk s)) s).

(** [os.path.exists(p) and os.path.getsize(p) > 1024] *)
Definition size_ok (p : string) : PM bool :=
  gets (fun s => match disk s !! p with
                 | Some n => Nat.ltb 1024 n
                 | None => false
                 end).

(* ------------------------------------------------------------------ *)
(** ** Response parsing *)

(** Line 120: [data.get("url") or data.get("picker", [{}])[0].get("url")
    or data.get("audio")].  [or] is lazy and yields the first truthy
    operand, or the last operand when none is truthy. *)
Definition cobalt_link (data : json) : pyres json :=
  match data with
  | JObj fs =>
      let u := dict_get fs "url" JNull in
      if truthy u then Ok u else
      match py_index0 (dict_get fs "picker" (JArr [JObj []])) with
      | Raise e => Raise e
      | Ok (JObj pfs) =>
          let pu := dict_get pfs "url" JNull in
          if truthy pu then Ok pu else Ok (dict_get fs "audio" JNull)
      | Ok _ => Raise AttributeError
      end
  | _ => Raise AttributeError
  end.

(** [for s in v] over a decoded JSON value. *)
Definition py_iter (v : json) : pyres (list json) :=
  match v with
  | JArr l => Ok l
  | JObj fs => Ok (map (fun p => JStr p.1) fs)
  | JStr s => Ok (map (fun c => JStr (String c EmptyString)) (list_ascii_of_string s))
  | _ => Raise TypeError
  end.

(** [next((s for s in streams if s.get("mimeType", "").startswith("audio")), None)] *)
Fixpoint first_audio (l : list json) : pyres (option json) :=
  match l with
  | [] => Ok None
  | s :: r =>
      match s with
      | JObj fs =>
          match dict_get fs "mimeType" (JStr "") with
          | JStr m => if String.prefix "audio" m then Ok (Some s) else first_audio r
          | _ => Raise AttributeError
          end
      | _ => Raise AttributeError
      end
  end.

(** Lines 161-164 *)
Definition piped_target (data : json) : pyres (option json) :=
  match data with
  | JObj fs =>
      match py_iter (dict_get fs "audioStreams" (JArr [])) with
      | Ok l => first_audio l
      | Raise e => Raise e
      end
  | _ => Raise AttributeError
  end.

(* ------------------------------------------------------------------ *)
(** ** [download_audio_federated] *)

Section Downloader.

Variable nw : net.

(** The directory [os.getcwd()] returns. *)
Variable cwd : string.

Definition output_path (output_filename : string) : string :=
  os_path_join cwd (output_filename ++ ".mp3").

Definition cobalt_payload (video_url : string) : json :=
  JObj [("url", JStr video_url); ("vCodec", JStr "h264"); ("vQuality", JStr "720");
        ("aFormat", JStr "mp3"); ("isAudioOnly", JBool true)].

Definition http_post (url : string) (payload : json) : PM response :=
  _ <- modify (add_request (HttpPost url payload));;
  lift (post_json nw url payload).

Definition http_get (url : string) : PM response :=
  _ <- modify (add_request (HttpGet url));;
  lift (get_json nw url).

Definition resp_json (r : response) : PM json :=
  match body r with
  | Some j => pret j
  | None => raise JSONDecodeError
  end.

(** The streamed download of [link] into [out] (lines 124-128 and 170-174). *)
Definition stream_to (out : string) (link : json) : PM unit :=
  _ <- modify (add_request (StreamGet link));;
  match stream nw link with
  | TRefused e => raise e
  | TPartial n e =>
      _ <- modify (fun s => set_disk (<[out := n]> (disk s)) s);;
      raise e
  | TDone n => modify (fun s => set_disk (<[out := n]> (disk s)) s)
  end.

(** Body of the [try] in the Cobalt loop, lines 112-132. *)
Definition cobalt_attempt (out video_url instance : string) : PM (option string) :=
  let base_url := rstrip_slash instance in
  let api_url := base_url ++ "/api/json" in
  resp <- http_post api_url (cobalt_payload video_url);;
  if Z.eqb (status_code resp) 200 then
    data <- resp_json resp;;
    download_link <- lift (cobalt_link data);;
    if truthy download_link then
      _ <- stream_to out download_link;;
      valid <- size_ok out;;
      if valid then pret (Some out) else pret None
    else pret None
  else pret None.

(** Body of the [try] in the Piped loop, lines 154-178. *)
Definition piped_attempt (out video_id instance : string) : PM (option string) :=
  let base_url := rstrip_slash instance in
  let api_url := base_url ++ "/streams/" ++ video_id in
  resp <- http_get api_url;;
  if Z.eqb (status_code resp) 200 then
    data <- resp_json resp;;
    target_stream <- lift (piped_target data);;
    match target_stream with
    | Some t =>
        if truthy t then
          stream_url <- lift (dict_index t "url");;
          _ <- stream_to out stream_url;;
          valid <- size_ok out;;
          if valid then pret (Some out) else pret None
        else pret None
    | None => pret None
    end
  else pret None.

(** Strategy B, lines 145-187: [get_video_id(video_url)] is left as a
    parameter, [extract url] being what evaluating that call gives. *)
Definition strategy_piped (extract : string -> pyres (option string))
    (out video_url : string) : PM (option string) :=
  video_id <- lift (extract video_url);;
  match video_id with
  | None => pret None
  | Some vid =>
      if String.eqb vid "" then pret None else
      _ <- shuffle_piped;;
      piped <- gets piped_instances;;
      try_each (piped_attempt out vid) piped
  end.

(** [download_audio_federated] (lines 79-187), for a given meaning of the
    call [get_video_id(video_url)]. *)
Definition download_audio_federated_with
    (extract : string -> pyres (option string))
    (video_url output_filename : string) : PM (option string) :=
  let out := output_path output_filename in
  _ <- remove_if_exists out;;
  _ <- shuffle_cobalt;;
  cobalt <- gets cobalt_instances;;
  r <- try_each (cobalt_attempt out video_url) cobalt;;
  match r with
  | Some p => pret (Some p)
  | None => strategy_piped extract out video_url
  end.

End Downloader.

(* ------------------------------------------------------------------ *)
(** ** The module [main.py] as written *)

(** Lines 50-62. *)
Definition COBALT_INSTANCES : list string := [
  "https://api.cobalt.best"; "https://cobalt.moskas.io"; "https://cobalt.xy2401.com";
  "https://api.cobalt.kwiatekmiki.pl"; "https://cobalt.steamys.me"; "https://cobalt.q11.app";
  "https://api.cobalt.minaev.su"; "https://cobalt.lacus.mynetgear.com";
  "https://cobalt.mc.hzuccon.com"; "https://api.server.cobalt.tools";
  "https://cobalt.154.53.58.117.sslip.io"].

(** Lines 65-77. *)
Definition PIPED_INSTANCES : list string := [
  "https://pipedapi.tokhmi.xyz"; "https://pipedapi.moomoo.me"; "https://pipedapi.syncpundit.io";
  "https://pipedapi.kavin.rocks"; "https://piped-api.lunar.icu"; "https://ytapi.dc09.ru";
  "https://pipedapi.r4fo.com"; "https://api.piped.yt"; "https://pipedapi.rivo.lol";
  "https://api-piped.mha.fi"; "https://pipedapi.leptons.xyz"].

(** The names bound at module level in [main.py]: its imports, its
    assignments and its [def]s.  [get_video_id] is not among them, and it
    is not a Python builtin either. *)
Definition main_globals : list string := [
  "os"; "time"; "json"; "math"; "random"; "requests"; "urlparse"; "parse_qs";
  "load_dotenv"; "Groq"; "genai"; "FastAPI"; "Form"; "CORSMiddleware";
  "GROQ_API_KEY"; "GEMINI_API_KEY"; "groq_client"; "app";
  "COBALT_INSTANCES"; "PIPED_INSTANCES"; "download_audio_federated";
  "MODEL_PRIORITY_LIST"; "get_working_gemini_response"; "transcribe_with_gemini";
  "transcribe_audio"; "generate_study_notes"; "chat_with_video";
  "read_root"; "generate_notes_endpoint"; "chat_endpoint"].

(** Evaluating a call to a global name: the name is looked up first, and
    an unbound name raises [NameError] before any argument is used. *)
Definition lookup_global (name : string) : pyres unit :=
  if existsb (String.eqb name) main_globals then Ok tt else Raise (NameError name).

(** [get_video_id(video_url)] at line 145.  The lookup of the name fails
    in this module, so the call raises. *)
Definition call_get_video_id (video_url : string) : pyres (option string) :=
  match lookup_global "get_video_id" with
  | Ok _ => Raise (NameError "get_video_id") (* no binding to call *)
  | Raise e => Raise e
  end.

(** [download_audio_federated(video_url, output_filename)] of [main.py]. *)
Definition download_audio_federated (nw : net) (cwd video_url output_filename : string)
  : PM (option string) :=
  download_audio_federated_with nw cwd call_get_video_id video_url output_filename.

(** The state of a freshly started process, with no file on disk. *)
Definition initial_state (rs : list nat) : pystate :=
  mk_pystate COBALT_INSTANCES PIPED_INSTANCES rs ∅ [].

(* ------------------------------------------------------------------ *)
(** ** Predicates on runs *)

(** [stays R m]: every run of [m] relates its initial and final states by [R]. *)
Definition stays {A} (R : pystate -> pystate -> Prop) (m : PM A) : Prop :=
  forall s, R s (m s).2.

(** The state after [os.remove] and [random.shuffle(COBALT_INSTANCES)]. *)
Definition prologue_state (cwd output_filename : string) (s : pystate) : pystate :=
  let s1 := set_disk (delete (output_path cwd output_filename) (disk s)) s in
  set_rng (py_shuffle (cobalt_instances s1) (rng s1)).2
    (set_cobalt (py_shuffle (cobalt_instances s1) (rng s1)).1 s1).

(** After the shuffle of [COBALT_INSTANCES], nothing in a call touches that
    list again, and [PIPED_INSTANCES] is only ever permuted. *)
Definition lists_after_shuffle (s s' : pystate) : Prop :=
  cobalt_instances s' = cobalt_instances s /\ piped_instances s' ≡ₚ piped_instances s.

(** What a successful run guarantees. *)
Definition on_success {A} (Q : A -> pystate -> Prop) (m : PM (option A)) : Prop :=
  forall s p s', m s = (Ok (Some p), s') -> Q p s'.

(** The returned path is the destination, and the file there is larger
    than 1024 bytes. *)
Definition valid_artifact (out p : string) (s : pystate) : Prop :=
  p = out /\ exists n, disk s !! out = Some n /\ 1024 < n.

(** A run touches no file but [out], and the file at [out] changes only
    through a streamed download issued during the run. *)
Definition file_frame (out : string) (s s' : pystate) : Prop :=
  (forall q, q <> out -> disk s' !! q = disk s !! q) /\
  exists new, requests s' = app (requests s) new /\
    (disk s' !! out = disk s !! out \/ exists link, StreamGet link ∈ new).

(** The bytes a streamed download leaves in the file it opened, when it
    opened one. *)
Definition transfer_size (t : transfer) : option nat :=
  match t with
  | TRefused _ => None
  | TPartial n _ | TDone n => Some n
  end.

(** How a run treats the file at [out]: the requests it issues are
    appended to the log; the file is unchanged or holds the bytes of a
    transfer issued during the run; a transfer of the run that opened the
    file leaves a file there; and a file that exists is never deleted. *)
Definition file_log (nw : net) (out : string) (s s' : pystate) : Prop :=
  exists new, requests s' = app (requests s) new /\
    (disk s' !! out = disk s !! out \/
     exists link n, StreamGet link ∈ new /\ transfer_size (stream nw link) = Some n /\
                    disk s' !! out = Some n) /\
    (forall link n, StreamGet link ∈ new -> transfer_size (stream nw link) = Some n ->
                    is_Some (disk s' !! out)) /\
    (is_Some (disk s !! out) -> is_Some (disk s' !! out)).

(** The requests one Cobalt attempt on [instance] issues: the POST to
    [instance.rstrip("/") + "/api/json"], then possibly the streamed GET. *)
Definition cobalt_request_block (video_url instance : string) (b : list request) : Prop :=
  b = [HttpPost (rstrip_slash instance ++ "/api/json") (cobalt_payload video_url)] \/
  exists link, b = [HttpPost (rstrip_slash instance ++ "/api/json") (cobalt_payload video_url);
                    StreamGet link].

(* ------------------------------------------------------------------ *)
(** ** The AI stage *)

(** Python [str] values as sequences of code points. *)
Abbreviation pystr := (list Z).

(** UTF-8 decoding of the bytes of a Rocq string literal. *)
Fixpoint utf8_decode (l : list ascii) : pystr :=
  let code (c : ascii) := Z.of_nat (nat_of_ascii c) in
  let cont (c : ascii) := Z.land (code c) 63 in
  match l with
  | [] => []
  | c :: r =>
      let b := code c in
      if (b <? 128)%Z then b :: utf8_decode r
      else if (b <? 224)%Z then
        match r with
        | c1 :: r1 => Z.lor (Z.shiftl (Z.land b 31) 6) (cont c1) :: utf8_decode r1
        | [] => []
        end
      else if (b <? 240)%Z then
        match r with
        | c1 :: c2 :: r2 =>
            Z.lor (Z.shiftl (Z.land b 15) 12) (Z.lor (Z.shiftl (cont c1) 6) (cont c2))
              :: utf8_decode r2
        | _ => []
        end
      else
        match r with
        | c1 :: c2 :: c3 :: r3 =>
            Z.lor (Z.shiftl (Z.land b 7) 18)
              (Z.lor (Z.shiftl (cont c1) 12) (Z.lor (Z.shiftl (cont c2) 6) (cont c3)))
              :: utf8_decode r3
        | _ => []
        end
  end.

(** A Python string literal of the source, written as a Rocq string in
    UTF-8; the character [~] stands for a double quote. *)
Definition py_lit (s : string) : pystr :=
  map (fun z => if Z.eqb z 126 then 34%Z else z) (utf8_decode (list_ascii_of_string s)).

(** [str.isspace] on one code point. *)
Definition py_isspace (c : Z) : bool :=
  ((9 <=? c) && (c <=? 13))%Z || ((28 <=? c) && (c <=? 32))%Z ||
  Z.eqb c 133 || Z.eqb c 160 || Z.eqb c 5760 ||
  ((8192 <=? c) && (c <=? 8202))%Z || Z.eqb c 8232 || Z.eqb c 8233 ||
  Z.eqb c 8239 || Z.eqb c 8287 || Z.eqb c 12288.

(** [str.split()] without arguments: maximal runs of non-space code points. *)
Fixpoint split_words_acc (l : pystr) (cur : pystr) : list pystr :=
  match l with
  | [] => match cur with [] => [] | _ => [List.rev cur] end
  | c :: r =>
      if py_isspace c then
        match cur with
        | [] => split_words_acc r []
        | _ => List.rev cur :: split_words_acc r []
        end
      else split_words_acc r (c :: cur)
  end.

Definition py_split (s : pystr) : list pystr := split_words_acc s [].

(** Lines 190-195. *)
Definition MODEL_PRIORITY_LIST : list string :=
  ["gemini-2.0-flash"; "gemini-2.0-flash-lite"; "gemini-1.5-flash"; "gemini-1.5-pro"].

(** What is handed to [model.generate_content]: a text prompt, or an
    uploaded file followed by a text (line 234). *)
Inductive prompt :=
  | PText (text : pystr)
  | PFileText (file : string) (text : pystr).

(** The external AI services.
    - [generate_content m p]: [genai.GenerativeModel(m).generate_content(p).text],
      or the exception any of these raises;
    - [groq_transcribe path]: the Groq Whisper call of [transcribe_audio],
      including reading the file;
    - [gemini_upload path]: [genai.upload_file] followed by the polling
      loop of lines 227-229, giving the file name and its final state. *)
Record ai := mk_ai {
  generate_content : string -> prompt -> pyres pystr;
  groq_transcribe : string -> pyres pystr;
  gemini_upload : string -> pyres (string * string)
}.

Definition overloaded_message : pystr :=
  py_lit "Sorry, the AI is currently overloaded. Please wait 1 minute and try again.".

(** [get_working_gemini_response] (lines 197-216): every exception moves
    on to the next model, whatever its message. *)
Definition get_working_gemini_response (g : ai) (prompt_parts : prompt) : pystr :=
  let fix go (models : list string) : pystr :=
    match models with
    | [] => overloaded_message
    | model_name :: rest =>
        match generate_content g model_name prompt_parts with
        | Ok text => text
        | Raise _ => go rest
        end
    end in
  go MODEL_PRIORITY_LIST.

(** [transcribe_with_gemini] (lines 218-238). *)
Definition transcribe_with_gemini (g : ai) (audio_path : string) : option pystr :=
  match gemini_upload g audio_path with
  | Raise _ => None
  | Ok (file, state) =>
      if String.eqb state "FAILED" then None (* ValueError, caught *)
      else Some (get_working_gemini_response g
                   (PFileText file (py_lit "Transcribe exactly word for word. Output raw text.")))
  end.

(** [transcribe_audio] (lines 240-253). *)
Definition transcribe_audio (g : ai) (audio_path : string) : option pystr :=
  match groq_transcribe g audio_path with
  | Ok text => Some text
  | Raise _ => transcribe_with_gemini g audio_path
  end.

(** The f-string of lines 266-290. *)
Definition notes_prompt (transcript_text target_language : pystr) : pystr :=
  py_lit "
    You are an expert AI tutor. 
    Target Language: "
  ++ target_language ++
  py_lit ".
    
    Generate:
    1. A Comprehensive Markdown Summary.
    2. Key Concepts (Bullet points).
    3. A JSON Quiz block at the very end.

    Format:
    # 📝 Video Summary
    [Summary]
    ## 🔑 Key Concepts
    - [Point 1]
    - [Point 2]
    
    ```json
    [
        { ~question~: ~...~, ~options~: [~A~, ~B~, ~C~, ~D~], ~answer~: 0 }
    ]
    ```

    **Transcript:**
    "
  ++ take 50000 transcript_text ++
  py_lit " 
    ".

(** [generate_study_notes] (lines 255-292); [None] is Python's [None]. *)
Definition generate_study_notes (g : ai) (transcript_text : pystr)
    (target_language : pystr) : option pystr :=
  match transcript_text with
  | [] => None
  | _ =>
      let words := length (py_split transcript_text) in
      let target_length := Z.max 300 (Z.min 1500 (Z.of_nat words / 2)) in
      Some (get_working_gemini_response g (PText (notes_prompt transcript_text target_language)))
  end.

(* ------------------------------------------------------------------ *)
(** ** The [/generate] endpoint *)

(** The JSON object the endpoint returns. *)
Inductive api_response :=
  | RError (msg : pystr)
  | RSuccess (markdown : option pystr) (transcript : pystr).

(** [str(e)] *)
Definition exn_str (e : exn) : pystr :=
  match e with
  | NameError n => py_lit ("name '" ++ n ++ "' is not defined")
  | IndexError => py_lit "list index out of range"
  | _ => []
  end.

(** [try: body except Exception as e: handler(e)] *)
Definition py_try {A} (body : PM A) (handler : exn -> PM A) : PM A := fun s =>
  match body s with
  | (Raise e, s') => handler e s'
  | r => r
  end.

(** [generate_notes_endpoint] (lines 318-342).  [download_audio_federated]
    is called with its default [output_filename="temp_audio"]. *)
Definition generate_notes_endpoint (nw : net) (g : ai) (cwd : string)
    (url : string) (language : pystr) : PM api_response :=
  audio_file <- download_audio_federated nw cwd url "temp_audio";;
  match audio_file with
  | None => pret (RError (py_lit "Download failed. YouTube blocked all servers."))
  | Some af =>
      if String.eqb af "" then
        pret (RError (py_lit "Download failed. YouTube blocked all servers."))
      else
      py_try
        (match transcribe_audio g af with
         | None | Some [] => pret (RError (py_lit "Transcription failed"))
         | Some transcript =>
             let notes := generate_study_notes g transcript language in
             _ <- remove_if_exists af;;
             pret (RSuccess notes transcript)
         end)
        (fun e => pret (RError (exn_str e)))
  end.

(* ------------------------------------------------------------------ *)
(** ** The [/chat] endpoint *)

(** The f-string of lines 298-308. *)
Definition chat_prompt (transcript_text user_question : pystr) : pystr :=
  py_lit "
    You are a helpful and friendly AI Assistant.
    
    **Context (Video Transcript):**
    "
  ++ take 20000 transcript_text ++
  py_lit "
    
    **User Question:**
    "
  ++ user_question ++
  py_lit "
    
    Answer the user based on the video. If the answer isn't in the video, say so politely.
    ".

(** [chat_with_video] (lines 294-309). *)
Definition chat_with_video (g : ai) (transcript_text user_question : pystr) : pystr :=
  get_working_gemini_response g (PText (chat_prompt transcript_text user_question)).

(** [chat_endpoint] (lines 344-350): the value under ["answer"] of the
    returned object. *)
Definition chat_endpoint (g : ai) (question transcript : pystr) : pystr :=
  match question, transcript with
  | [], _ | _, [] => py_lit "Error: Missing data."
  | _, _ => chat_with_video g transcript question
  end.

(* ------------------------------------------------------------------ *)
(** ** Concrete scenarios *)

Definition dl_link : json := JStr "https://dl.example/audio.mp3".

(** Every mirror is unreachable. *)
Definition net_all_down : net :=
  mk_net (fun _ _ => Raise RequestException) (fun _ => Raise RequestException)
         (fun _ => TRefused RequestException).

(** Only the Cobalt mirror [good] answers, with a download link whose
    transfer writes [size] bytes; every other mirror answers 403. *)
Definition net_only (good : string) (size : nat) : net :=
  mk_net
    (fun url _ =>
       if String.eqb url (good ++ "/api/json")
       then Ok (mk_response 200 (Some (JObj [("status", JStr "stream"); ("url", dl_link)])))
       else Ok (mk_response 403 None))
    (fun _ => Ok (mk_response 403 None))
    (fun _ => TDone size).

(** As [net_only], but the transfer breaks off after [size] bytes. *)
Definition net_only_partial (good : string) (size : nat) : net :=
  mk_net (post_json (net_only good size)) (get_json (net_only good size))
         (fun _ => TPartial size RequestException).

(** Every Cobalt mirror answers with an empty [picker] list and the
    address under [audio]. *)
Definition picker_empty_body : json :=
  JObj [("status", JStr "picker"); ("picker", JArr []); ("audio", dl_link)].

Definition net_picker_empty : net :=
  mk_net (fun _ _ => Ok (mk_response 200 (Some picker_empty_body)))
         (fun _ => Ok (mk_response 403 None))
         (fun _ => TDone 4096).

(** Every AI call fails. *)
Definition ai_all_fail : ai :=
  mk_ai (fun _ _ => Raise HTTPError) (fun _ => Raise HTTPError) (fun _ => Raise HTTPError).

(** Groq transcribes to [t]; every Gemini model fails. *)
Definition ai_transcript_only (t : pystr) : ai :=
  mk_ai (fun _ _ => Raise HTTPError) (fun _ => Ok t) (fun _ => Raise HTTPError).

Definition is_stream_get (r : request) : bool :=
  match r with StreamGet _ => true | _ => false end.

(** Only model [m] answers, with [text]. *)
Definition ai_only_model (m : string) (text : pystr) : ai :=
  mk_ai (fun m' _ => if String.eqb m' m then Ok text else Raise HTTPError)
        (fun _ => Raise HTTPError) (fun _ => Raise HTTPError).

(** Groq fails, the Gemini upload succeeds, every model fails. *)
Definition ai_upload_only : ai :=
  mk_ai (fun _ _ => Raise HTTPError) (fun _ => Raise HTTPError)
        (fun _ => Ok ("files/abc", "ACTIVE")).


(* ------------------------------------------------------------------ *)
(** ** Facts about [random.shuffle] *)

Lemma swap_perm {A} (i j : nat) (x : list A) : swap i j x ≡ₚ x.
Proof.
  unfold swap.
  destruct (x !! i) as [xi|] eqn:Hi; [|done].
  destruct (x !! j) as [xj|] eqn:Hj; [|done].
  by apply Permutation_insert_swap.
Qed.

Lemma shuffle_from_perm {A} (i : nat) (x : list A) (rs : list nat) :
  (shuffle_from i x rs).1 ≡ₚ x.
Proof.
  revert x rs; induction i as [|i IH]; intros x rs; simpl; [done|].
  destruct (randbelow (S (S i)) rs) as [j rs'].
  rewrite IH. apply swap_perm.
Qed.

Lemma py_shuffle_perm {A} (x : list A) (rs : list nat) : (py_shuffle x rs).1 ≡ₚ x.
Proof. apply shuffle_from_perm. Qed.

(* ------------------------------------------------------------------ *)
(** ** Relational invariants of monadic code *)


Section Stays.

Variable R : pystate -> pystate -> Prop.
Hypothesis R_refl : forall s, R s s.
Hypothesis R_trans : forall s1 s2 s3, R s1 s2 -> R s2 s3 -> R s1 s3.

Lemma stays_pret {A} (a : A) : stays R (pret a).
Proof using R_refl R_trans. intros s. apply R_refl. Qed.

Lemma stays_raise {A} (e : exn) : stays R (@raise A e).
Proof using R_refl R_trans. intros s. apply R_refl. Qed.

Lemma stays_lift {A} (r : pyres A) : stays R (lift r).
Proof using R_refl R_trans. intros s. apply R_refl. Qed.

Lemma stays_gets {A} (f : pystate -> A) : stays R (gets f).
Proof using R_refl R_trans. intros s. apply R_refl. Qed.

Lemma stays_modify (f : pystate -> pystate) :
  (forall s, R s (f s)) -> stays R (modify f).
Proof using R_refl R_trans. intros Hf s. apply Hf. Qed.

Lemma stays_bind {A B} (m : PM A) (f : A -> PM B) :
  stays R m -> (forall a, stays R (f a)) -> stays R (pbind m f).
Proof using R_refl R_trans.
  intros Hm Hf s. unfold pbind.
  specialize (Hm s). destruct (m s) as [[a|e] s']; simpl in *; [|done].
  eapply R_trans; [exact Hm | apply Hf].
Qed.

Lemma stays_try_continue {A} (m : PM (option A)) :
  stays R m -> stays R (try_continue m).
Proof using R_refl R_trans.
  intros Hm s. unfold try_continue.
  specialize (Hm s). by destruct (m s) as [[a|e] s'].
Qed.

Lemma stays_try_each {A B} (attempt : A -> PM (option B)) (l : list A) :
  (forall x, stays R (attempt x)) -> stays R (try_each attempt l).
Proof using R_refl R_trans.
  intros Ha. induction l as [|x l IH]; simpl.
  - apply stays_pret.
  - apply stays_bind; [by apply stays_try_continue|].
    intros [p|]; [apply stays_pret | exact IH].
Qed.

End Stays.

Ltac stays_step :=
  match goal with
  | |- stays _ (pbind _ _) => eapply stays_bind; [eassumption | eassumption | | intros ?]
  | |- stays _ (modify _) => apply stays_modify; [eassumption | eassumption | intros ?]
  | |- stays _ (pret _) => apply stays_pret; assumption
  | |- stays _ (raise _) => apply stays_raise; assumption
  | |- stays _ (lift _) => apply stays_lift; assumption
  | |- stays _ (gets _) => apply stays_gets; assumption
  | |- stays _ (try_each _ _) => apply stays_try_each; [eassumption | eassumption | intros ?]
  | |- stays _ (if ?b then _ else _) => destruct b
  | |- stays _ (match ?x with _ => _ end) => destruct x
  end.

Section AttemptInvariants.

Variable R : pystate -> pystate -> Prop.
Hypothesis R_refl : forall s, R s s.
Hypothesis R_trans : forall s1 s2 s3, R s1 s2 -> R s2 s3 -> R s1 s3.
Variable nw : net.
Variable out : string.
Hypothesis R_request : forall r s, R s (add_request r s).
Hypothesis R_stream : forall link, stays R (stream_to nw out link).

Lemma stays_cobalt_attempt (video_url instance : string) :
  stays R (cobalt_attempt nw out video_url instance).
Proof.
  unfold cobalt_attempt, http_post, resp_json, size_ok.
  repeat (stays_step || auto).
Qed.

Lemma stays_piped_attempt (video_id instance : string) :
  stays R (piped_attempt nw out video_id instance).
Proof.
  unfold piped_attempt, http_get, resp_json, size_ok.
  repeat (stays_step || auto).
Qed.

End AttemptInvariants.

Lemma stays_stream_to (R : pystate -> pystate -> Prop) nw out link :
  (forall s, R s s) -> (forall s1 s2 s3, R s1 s2 -> R s2 s3 -> R s1 s3) ->
  (forall r s, R s (add_request r s)) ->
  (forall n s, R s (set_disk (<[out := n]> (disk s)) s)) ->
  stays R (stream_to nw out link).
Proof.
  intros R_refl R_trans R_request R_write.
  unfold stream_to.
  repeat (stays_step || auto).
Qed.

(* ------------------------------------------------------------------ *)
(** ** Unfolding the downloader *)

Lemma try_each_app {A B} (attempt : A -> PM (option B)) (l1 l2 : list A) (s : pystate) :
  try_each attempt (l1 ++ l2) s =
  match try_each attempt l1 s with
  | (Ok None, s') => try_each attempt l2 s'
  | r => r
  end.
Proof.
  revert s; induction l1 as [|x l1 IH]; intros s; simpl; [done|].
  unfold pbind, try_continue.
  destruct (attempt x s) as [[[p|]|e] s']; simpl; auto.
Qed.

Lemma try_each_never_raises {A B} (attempt : A -> PM (option B)) (l : list A) (s : pystate) :
  exists r s', try_each attempt l s = (Ok r, s').
Proof.
  revert s; induction l as [|x l IH]; intros s; simpl; [by eexists _, _|].
  unfold pbind, try_continue.
  destruct (attempt x s) as [[[p|]|e] s']; simpl; eauto.
Qed.


Lemma download_with_unfold nw cwd extract video_url output_filename s :
  download_audio_federated_with nw cwd extract video_url output_filename s =
  let s1 := prologue_state cwd output_filename s in
  pbind (try_each (cobalt_attempt nw (output_path cwd output_filename) video_url)
                  (cobalt_instances s1))
        (fun r => match r with
                  | Some p => pret (Some p)
                  | None => strategy_piped nw extract (output_path cwd output_filename) video_url
                  end) s1.
Proof.
  unfold download_audio_federated_with, prologue_state.
  unfold pbind at 1; cbn [remove_if_exists modify].
  unfold pbind at 1, shuffle_cobalt.
  destruct (py_shuffle _ _) as [l rs] eqn:E; simpl.
  reflexivity.
Qed.

Lemma stays_shuffle_piped (R : pystate -> pystate -> Prop) :
  (forall s l rs, l ≡ₚ piped_instances s -> R s (set_rng rs (set_piped l s))) ->
  stays R shuffle_piped.
Proof.
  intros HR s. unfold shuffle_piped.
  pose proof (py_shuffle_perm (piped_instances s) (rng s)) as Hp.
  destruct (py_shuffle _ _) as [l rs]; simpl in *. by apply HR.
Qed.


Lemma lists_after_shuffle_refl s : lists_after_shuffle s s.
Proof. split; done. Qed.

Lemma lists_after_shuffle_trans s1 s2 s3 :
  lists_after_shuffle s1 s2 -> lists_after_shuffle s2 s3 -> lists_after_shuffle s1 s3.
Proof. intros [H1 H2] [H3 H4]; split; [congruence | by rewrite H4]. Qed.

#[local] Hint Resolve lists_after_shuffle_refl lists_after_shuffle_trans : core.

Lemma stays_after_prologue_lists nw cwd extract video_url output_filename l :
  stays lists_after_shuffle
    (pbind (try_each (cobalt_attempt nw (output_path cwd output_filename) video_url) l)
       (fun r => match r with
                 | Some p => pret (Some p)
                 | None => strategy_piped nw extract (output_path cwd output_filename) video_url
                 end)).
Proof.
  assert (Hreq : forall q s, lists_after_shuffle s (add_request q s)) by (intros; split; done).
  assert (Hstr : forall out link, stays lists_after_shuffle (stream_to nw out link)).
  { intros. apply stays_stream_to; first [done | eauto | intros; split; done]. }
  pose proof lists_after_shuffle_refl as Hrefl.
  pose proof lists_after_shuffle_trans as Htrans.
  assert (Hc : forall out u i, stays lists_after_shuffle (cobalt_attempt nw out u i)).
  { intros. apply stays_cobalt_attempt; auto. }
  assert (Hp : forall out v i, stays lists_after_shuffle (piped_attempt nw out v i)).
  { intros. apply stays_piped_attempt; auto. }
  assert (Hs : stays lists_after_shuffle shuffle_piped).
  { apply stays_shuffle_piped. intros ? l' rs Hl. split; done. }
  unfold strategy_piped.
  repeat (stays_step || apply Hc || apply Hp || assumption).
Qed.


(* ------------------------------------------------------------------ *)
(** ** The destination file *)


Lemma on_success_try_each {A B} (Q : B -> pystate -> Prop) (attempt : A -> PM (option B)) l :
  (forall x, on_success Q (attempt x)) -> on_success Q (try_each attempt l).
Proof.
  intros Ha. induction l as [|x l IH]; intros s p s' H; simpl in H.
  - discriminate.
  - unfold pbind, try_continue in H.
    destruct (attempt x s) as [[[q|]|e] s1] eqn:E.
    + simpl in H. inversion H; subst. eapply Ha; exact E.
    + eapply IH; exact H.
    + eapply IH; exact H.
Qed.

Ltac run_in H :=
  repeat (unfold pbind, pret, lift, gets, modify, raise in H; simpl in H;
          case_match; simplify_eq/=).

Ltac finish_valid :=
  match goal with
  | Hs : match disk ?s !! ?p with Some n => Nat.ltb 1024 n | None => false end = true
    |- valid_artifact _ _ _ =>
      split; [done|];
      destruct (disk s !! p) as [n|] eqn:?; [|discriminate];
      exists n; split; [done | by apply Nat.ltb_lt]
  end.

Lemma cobalt_attempt_valid nw out video_url instance :
  on_success (valid_artifact out) (cobalt_attempt nw out video_url instance).
Proof.
  intros s p s' H.
  unfold cobalt_attempt, http_post, resp_json, stream_to, size_ok in H.
  run_in H. finish_valid.
Qed.

Lemma piped_attempt_valid nw out video_id instance :
  on_success (valid_artifact out) (piped_attempt nw out video_id instance).
Proof.
  intros s p s' H.
  unfold piped_attempt, http_get, resp_json, stream_to, size_ok in H.
  run_in H. finish_valid.
Qed.

Lemma download_valid_on_success nw cwd extract video_url output_filename :
  on_success (valid_artifact (output_path cwd output_filename))
    (download_audio_federated_with nw cwd extract video_url output_filename).
Proof.
  intros s p s' H.
  rewrite download_with_unfold in H. cbv zeta in H.
  unfold pbind at 1 in H.
  destruct (try_each _ _ _) as [[[q|]|e] s1] eqn:E.
  - simpl in H. inversion H; subst.
    eapply on_success_try_each; [|exact E]. apply cobalt_attempt_valid.
  - unfold strategy_piped in H. run_in H.
    + unfold shuffle_piped in *. destruct (py_shuffle _ _). simplify_eq/=.
      run_in H.
      eapply on_success_try_each; [|exact H]. apply piped_attempt_valid.
  - discriminate.
Qed.


Lemma file_frame_refl out s : file_frame out s s.
Proof. split; [done|]. exists []. split; [by rewrite app_nil_r | by left]. Qed.

Lemma file_frame_trans out s1 s2 s3 :
  file_frame out s1 s2 -> file_frame out s2 s3 -> file_frame out s1 s3.
Proof.
  intros [Ha [n1 [Hr1 Ho1]]] [Hb [n2 [Hr2 Ho2]]]. split.
  - intros q Hq. rewrite Hb, Ha; done.
  - exists (app n1 n2). split; [by rewrite Hr2, Hr1, app_assoc|].
    destruct Ho2 as [Ho2|[l Hl]].
    + destruct Ho1 as [Ho1|[l Hl]]; [left; congruence|].
      right. exists l. set_solver.
    + right. exists l. set_solver.
Qed.

Lemma file_frame_request out r s : file_frame out s (add_request r s).
Proof. split; [done|]. exists [r]. split; [done | by left]. Qed.

Lemma file_frame_stream_to nw out link : stays (file_frame out) (stream_to nw out link).
Proof.
  intros s. unfold stream_to, pbind, modify, raise.
  simpl. destruct (stream nw link) as [e|n e|n]; simpl.
  - apply file_frame_request.
  - split; [intros q Hq; simpl; by rewrite lookup_insert_ne by done|].
    exists [StreamGet link]. split; [done|]. right. exists link. set_solver.
  - split; [intros q Hq; simpl; by rewrite lookup_insert_ne by done|].
    exists [StreamGet link]. split; [done|]. right. exists link. set_solver.
Qed.

Lemma stays_after_prologue_frame nw cwd extract video_url output_filename l :
  stays (file_frame (output_path cwd output_filename))
    (pbind (try_each (cobalt_attempt nw (output_path cwd output_filename) video_url) l)
       (fun r => match r with
                 | Some p => pret (Some p)
                 | None => strategy_piped nw extract (output_path cwd output_filename) video_url
                 end)).
Proof.
  set (out := output_path cwd output_filename).
  pose proof (file_frame_refl out) as Hrefl.
  pose proof (file_frame_trans out) as Htrans.
  assert (Hc : forall u i, stays (file_frame out) (cobalt_attempt nw out u i)).
  { intros. apply stays_cobalt_attempt; auto using file_frame_request, file_frame_stream_to. }
  assert (Hp : forall v i, stays (file_frame out) (piped_attempt nw out v i)).
  { intros. apply stays_piped_attempt; auto using file_frame_request, file_frame_stream_to. }
  assert (Hs : stays (file_frame out) shuffle_piped).
  { apply stays_shuffle_piped. intros ? l' rs _. split; [done|].
    exists []. split; [by rewrite app_nil_r | by left]. }
  unfold strategy_piped.
  repeat (stays_step || apply Hc || apply Hp || assumption).
Qed.


(* ------------------------------------------------------------------ *)
(** ** Where the destination file comes from *)

Section RequestKinds.

Variable R : pystate -> pystate -> Prop.
Hypothesis R_refl : forall s, R s s.
Hypothesis R_trans : forall s1 s2 s3, R s1 s2 -> R s2 s3 -> R s1 s3.
Variable nw : net.
Variable out : string.
Hypothesis R_post : forall url p s, R s (add_request (HttpPost url p) s).
Hypothesis R_get : forall url s, R s (add_request (HttpGet url) s).
Hypothesis R_stream : forall link, stays R (stream_to nw out link).

Lemma stays_cobalt_attempt_kinds (video_url instance : string) :
  stays R (cobalt_attempt nw out video_url instance).
Proof.
  unfold cobalt_attempt, http_post, resp_json, size_ok.
  repeat (stays_step || auto).
Qed.

Lemma stays_piped_attempt_kinds (video_id instance : string) :
  stays R (piped_attempt nw out video_id instance).
Proof.
  unfold piped_attempt, http_get, resp_json, size_ok.
  repeat (stays_step || auto).
Qed.

End RequestKinds.

Lemma file_log_refl nw out s : file_log nw out s s.
Proof.
  exists []. split; [by rewrite app_nil_r|]. split; [by left|].
  split; [|done]. intros l n Hl. by apply elem_of_nil in Hl.
Qed.

Lemma file_log_trans nw out s1 s2 s3 :
  file_log nw out s1 s2 -> file_log nw out s2 s3 -> file_log nw out s1 s3.
Proof.
  intros (n1 & Hr1 & Hw1 & Ht1 & Hp1) (n2 & Hr2 & Hw2 & Ht2 & Hp2).
  exists (app n1 n2). split; [by rewrite Hr2, Hr1, app_assoc|]. split; [|split].
  - destruct Hw2 as [Hw2|(l & n & Hl & Hn & Ho)].
    + destruct Hw1 as [Hw1|(l & n & Hl & Hn & Ho)]; [left; congruence|].
      right. exists l, n. split; [set_solver|]. split; [done|]. congruence.
    + right. exists l, n. split; [set_solver | done].
  - intros l n Hl Hn. apply elem_of_app in Hl as [Hl|Hl].
    + apply Hp2. by apply (Ht1 l n).
    + by apply (Ht2 l n).
  - intros H. by apply Hp2, Hp1.
Qed.

Lemma file_log_post nw out url p s : file_log nw out s (add_request (HttpPost url p) s).
Proof.
  exists [HttpPost url p]. split; [done|]. split; [by left|]. split; [|done].
  intros l n Hl. apply list_elem_of_singleton in Hl. discriminate.
Qed.

Lemma file_log_get nw out url s : file_log nw out s (add_request (HttpGet url) s).
Proof.
  exists [HttpGet url]. split; [done|]. split; [by left|]. split; [|done].
  intros l n Hl. apply list_elem_of_singleton in Hl. discriminate.
Qed.

Lemma file_log_stream_to nw out link : stays (file_log nw out) (stream_to nw out link).
Proof.
  intros s. unfold stream_to, pbind, modify, raise. simpl.
  destruct (stream nw link) as [e|n e|n] eqn:Es; simpl.
  - exists [StreamGet link]. split; [done|]. split; [by left|]. split; [|done].
    intros l m Hl Hm. apply list_elem_of_singleton in Hl. injection Hl as ->.
    by rewrite Es in Hm.
  - exists [StreamGet link]. split; [done|]. split.
    { right. exists link, n. split; [set_solver|]. rewrite Es; simpl; by rewrite lookup_insert_eq. }
    split; intros; simpl; by rewrite lookup_insert_eq.
  - exists [StreamGet link]. split; [done|]. split.
    { right. exists link, n. split; [set_solver|]. rewrite Es; simpl; by rewrite lookup_insert_eq. }
    split; intros; simpl; by rewrite lookup_insert_eq.
Qed.

Lemma stays_after_prologue_log nw cwd extract video_url output_filename l :
  stays (file_log nw (output_path cwd output_filename))
    (pbind (try_each (cobalt_attempt nw (output_path cwd output_filename) video_url) l)
       (fun r => match r with
                 | Some p => pret (Some p)
                 | None => strategy_piped nw extract (output_path cwd output_filename) video_url
                 end)).
Proof.
  set (out := output_path cwd output_filename).
  pose proof (file_log_refl nw out) as Hrefl.
  pose proof (file_log_trans nw out) as Htrans.
  assert (Hc : forall u i, stays (file_log nw out) (cobalt_attempt nw out u i)).
  { intros. apply stays_cobalt_attempt_kinds;
      auto using file_log_post, file_log_get, file_log_stream_to. }
  assert (Hp : forall v i, stays (file_log nw out) (piped_attempt nw out v i)).
  { intros. apply stays_piped_attempt_kinds;
      auto using file_log_post, file_log_get, file_log_stream_to. }
  assert (Hs : stays (file_log nw out) shuffle_piped).
  { apply stays_shuffle_piped. intros ? l' rs _.
    exists []. simpl. split; [by rewrite app_nil_r|]. split; [by left|].
    split; [|done]. intros ?? H. by apply elem_of_nil in H. }
  unfold strategy_piped.
  repeat (stays_step || apply Hc || apply Hp || assumption).
Qed.

(** After a call, the destination holds no file or the bytes of a transfer
    issued during the call, and every transfer of the call that opened the
    destination leaves a file there. *)
Lemma download_file_log nw cwd extract video_url output_filename s :
  let out := output_path cwd output_filename in
  let s' := (download_audio_federated_with nw cwd extract video_url output_filename s).2 in
  exists new, requests s' = app (requests s) new /\
    (disk s' !! out = None \/
     exists link n, StreamGet link ∈ new /\ transfer_size (stream nw link) = Some n /\
                    disk s' !! out = Some n) /\
    (forall link n, StreamGet link ∈ new -> transfer_size (stream nw link) = Some n ->
                    is_Some (disk s' !! out)).
Proof.
  cbv zeta.
  set (out := output_path cwd output_filename).
  set (s1 := prologue_state cwd output_filename s).
  assert (Hf : file_log nw out s1
                 (download_audio_federated_with nw cwd extract video_url output_filename s).2).
  { rewrite download_with_unfold. apply stays_after_prologue_log. }
  destruct Hf as (new & Hr & Hw & Ht & _).
  assert (Hd : disk s1 !! out = None)
    by (subst s1; unfold prologue_state; simpl; apply lookup_delete_eq).
  assert (Hrq : requests s1 = requests s) by (subst s1; unfold prologue_state; simpl; done).
  exists new. split; [by rewrite Hr, Hrq|]. split; [|done].
  destruct Hw as [Hw|Hw]; [left; by rewrite Hw | by right].
Qed.

(* ------------------------------------------------------------------ *)
(** ** The requests of a call *)

Lemma cobalt_attempt_block nw out u i s :
  exists b, requests (cobalt_attempt nw out u i s).2 = app (requests s) b /\
    cobalt_request_block u i b.
Proof.
  unfold cobalt_attempt, http_post, stream_to, resp_json, size_ok,
    pbind, modify, lift, gets, pret, raise.
  simpl. repeat (case_match; simplify_eq/=);
  eexists; (split; [rewrite <- ?app_assoc; reflexivity |
    unfold cobalt_request_block; first [left; reflexivity | right; eexists; reflexivity]]).
Qed.

Lemma try_each_blocks {A B} (attempt : A -> PM (option B)) (P : A -> list request -> Prop) :
  (forall x s, exists b, requests (attempt x s).2 = app (requests s) b /\ P x b) ->
  forall l s, exists pre blocks, pre `prefix_of` l /\ Forall2 P pre blocks /\
    requests (try_each attempt l s).2 = app (requests s) (concat blocks).
Proof.
  intros Ha l. induction l as [|x l IH]; intros s; simpl.
  - exists [], []. split; [done|]. split; [constructor|]. by rewrite app_nil_r.
  - unfold pbind at 1, try_continue.
    destruct (Ha x s) as [b [Hb Pb]].
    destruct (attempt x s) as [[[p|]|e] s1]; simpl in Hb |- *.
    + exists [x], [b]. split; [apply prefix_cons, prefix_nil|].
      split; [by constructor|]. simpl. by rewrite app_nil_r.
    + destruct (IH s1) as (pre & bs & Hpre & Hf & Hr). exists (x :: pre), (b :: bs).
      split; [by apply prefix_cons|]. split; [by constructor|].
      simpl. by rewrite Hr, Hb, app_assoc.
    + destruct (IH s1) as (pre & bs & Hpre & Hf & Hr). exists (x :: pre), (b :: bs).
      split; [by apply prefix_cons|]. split; [by constructor|].
      simpl. by rewrite Hr, Hb, app_assoc.
Qed.

Lemma concat_blocks_length u pre blocks :
  Forall2 (cobalt_request_block u) pre blocks -> (length (concat blocks) <= 2 * length pre)%nat.
Proof.
  induction 1 as [|i b pre bs Hb _ IH]; simpl; [lia|].
  rewrite length_app. destruct Hb as [->|[l ->]]; simpl; lia.
Qed.

(* ------------------------------------------------------------------ *)
(** ** Further lemmas *)

Lemma try_each_cobalt_all_down out video_url l s :
  exists s', try_each (cobalt_attempt net_all_down out video_url) l s = (Ok None, s').
Proof.
  revert s; induction l as [|x l IH]; intros s; simpl; [by eexists|].
  unfold pbind at 1, try_continue. simpl. apply IH.
Qed.

(** The only exception that can leave [download_audio_federated] is the
    one raised by evaluating [get_video_id(video_url)] at line 145. *)
Lemma download_raise_comes_from_extract nw cwd extract video_url output_filename s e s' :
  download_audio_federated_with nw cwd extract video_url output_filename s = (Raise e, s') ->
  extract video_url = Raise e.
Proof.
  rewrite download_with_unfold. cbv zeta. unfold pbind at 1.
  destruct (try_each_never_raises (cobalt_attempt nw (output_path cwd output_filename) video_url)
              (cobalt_instances (prologue_state cwd output_filename s))
              (prologue_state cwd output_filename s)) as (r & s1 & E).
  rewrite E. destruct r as [p|]; [discriminate|].
  unfold strategy_piped, pbind, lift.
  destruct (extract video_url) as [[vid|]|e']; [|discriminate|congruence].
  destruct (String.eqb vid ""); [discriminate|].
  unfold shuffle_piped. destruct (py_shuffle _ _). unfold gets. simpl.
  destruct (try_each_never_raises (piped_attempt nw (output_path cwd output_filename) vid)
              l (set_rng l0 (set_piped l s1))) as (r' & s2 & E2).
  rewrite E2. discriminate.
Qed.

Lemma output_path_temp_audio_nonempty cwd : output_path cwd "temp_audio" <> "".
Proof.
  unfold output_path, os_path_join. simpl.
  destruct (String.eqb cwd ""); [discriminate|].
  destruct cwd as [|c r]; [discriminate|].
  destruct (String.eqb _ "/"); discriminate.
Qed.

(** What one call does to the disk: the frame, the provenance of the
    destination file, and the size check behind a returned path. *)
Lemma download_file_facts nw cwd extract video_url output_filename s :
  let out := output_path cwd output_filename in
  let '(r, s') := download_audio_federated_with nw cwd extract video_url output_filename s in
  (forall q, q <> out -> disk s' !! q = disk s !! q) /\
  (exists new, requests s' = app (requests s) new /\
     (disk s' !! out = None \/ exists link, StreamGet link ∈ new)) /\
  (forall p, r = Ok (Some p) -> p = out /\ exists n, disk s' !! out = Some n /\ 1024 < n).
Proof.
  cbv zeta.
  set (out := output_path cwd output_filename).
  set (s1 := prologue_state cwd output_filename s).
  assert (Hf : file_frame out s1
                 (download_audio_federated_with nw cwd extract video_url output_filename s).2).
  { rewrite download_with_unfold. apply stays_after_prologue_frame. }
  pose proof (download_valid_on_success nw cwd extract video_url output_filename s) as Hv.
  destruct (download_audio_federated_with _ _ _ _ _ s) as [r s'] eqn:E.
  simpl in Hf. destruct Hf as [Hq [new [Hr Ho]]].
  assert (Hd : disk s1 = delete out (disk s)) by (subst s1; unfold prologue_state; simpl; done).
  assert (Hrq : requests s1 = requests s) by (subst s1; unfold prologue_state; simpl; done).
  split; [|split].
  - intros q Hne. rewrite Hq by done. rewrite Hd. by rewrite lookup_delete_ne.
  - exists new. split; [by rewrite Hr, Hrq|].
    destruct Ho as [Ho|Ho]; [left|right; done].
    rewrite Ho, Hd. apply lookup_delete_eq.
  - intros p ->. by apply (Hv p s').
Qed.


(* ================================================================== *)
(** * The claims *)

(** C1 (code_bug): when every Cobalt mirror fails, [download_audio_federated]
    does not return [None]: the call [get_video_id(video_url)] at line 145,
    outside any [try], raises [NameError] because [main.py] neither defines
    nor imports [get_video_id], and the exception leaves the engine. *)
Theorem download_raises_name_error_when_cobalt_fails cwd video_url output_filename s :
  (download_audio_federated net_all_down cwd video_url output_filename s).1
    = Raise (NameError "get_video_id").
Proof.
  unfold download_audio_federated. rewrite download_with_unfold. cbv zeta.
  unfold pbind at 1.
  destruct (try_each_cobalt_all_down (output_path cwd output_filename) video_url
              (cobalt_instances (prologue_state cwd output_filename s))
              (prologue_state cwd output_filename s)) as [s1 E].
  rewrite E. reflexivity.
Qed.

(** C2 (confirmed): if the Cobalt candidates before [inst] in the shuffled
    list all fail, and [inst] answers 200 with a truthy download address
    whose transfer writes more than 1024 bytes, the call returns the
    destination path, and the only requests issued after the earlier
    candidates are the POST to [inst] and the download of its address:
    no later Cobalt candidate and no Piped mirror is contacted. *)
Theorem download_stops_at_first_cobalt_success nw cwd extract video_url output_filename s
    prefix inst rest s2 resp data link n :
  cobalt_instances (prologue_state cwd output_filename s) = app prefix (inst :: rest) ->
  try_each (cobalt_attempt nw (output_path cwd output_filename) video_url) prefix
    (prologue_state cwd output_filename s) = (Ok None, s2) ->
  post_json nw (rstrip_slash inst ++ "/api/json") (cobalt_payload video_url) = Ok resp ->
  status_code resp = 200%Z ->
  body resp = Some data ->
  cobalt_link data = Ok link ->
  truthy link = true ->
  stream nw link = TDone n ->
  1024 < n ->
  exists s',
    download_audio_federated_with nw cwd extract video_url output_filename s
      = (Ok (Some (output_path cwd output_filename)), s') /\
    requests s' = app (requests s2)
      [HttpPost (rstrip_slash inst ++ "/api/json") (cobalt_payload video_url); StreamGet link].
Proof.
  intros Hl Hpre Hpost Hst Hbody Hlink Htr Hstream Hn.
  rewrite download_with_unfold. cbv zeta. rewrite Hl.
  unfold pbind at 1. rewrite try_each_app, Hpre.
  simpl try_each. unfold pbind at 1, try_continue.
  unfold cobalt_attempt, http_post, resp_json, stream_to, size_ok.
  unfold pbind, modify, lift, gets, pret. simpl.
  rewrite Hpost. simpl. rewrite Hst. simpl. rewrite Hbody, Hlink, Htr. simpl.
  rewrite Hstream. simpl. rewrite lookup_insert_eq.
  apply Nat.ltb_lt in Hn. rewrite Hn. simpl.
  eexists. split; [reflexivity|]. simpl. by rewrite <- app_assoc.
Qed.

Lemma download_stops_at_first_cobalt_success_witness :
  exists s',
    download_audio_federated (net_only "https://cobalt.xy2401.com" 4096) "/srv"
      "https://youtu.be/abc123XYZ9" "temp_audio" (initial_state [])
      = (Ok (Some (output_path "/srv" "temp_audio")), s') /\
    requests s' = app
      [HttpPost "https://cobalt.moskas.io/api/json" (cobalt_payload "https://youtu.be/abc123XYZ9")]
      [HttpPost "https://cobalt.xy2401.com/api/json" (cobalt_payload "https://youtu.be/abc123XYZ9");
       StreamGet dl_link].
Proof.
  apply (download_stops_at_first_cobalt_success (net_only "https://cobalt.xy2401.com" 4096)
           "/srv" call_get_video_id "https://youtu.be/abc123XYZ9" "temp_audio" (initial_state [])
           ["https://cobalt.moskas.io"] "https://cobalt.xy2401.com"
           (List.skipn 2 (cobalt_instances (prologue_state "/srv" "temp_audio" (initial_state []))))
           (try_each (cobalt_attempt (net_only "https://cobalt.xy2401.com" 4096)
                        (output_path "/srv" "temp_audio") "https://youtu.be/abc123XYZ9")
                     ["https://cobalt.moskas.io"]
                     (prologue_state "/srv" "temp_audio" (initial_state []))).2
           (mk_response 200 (Some (JObj [("status", JStr "stream"); ("url", dl_link)])))
           (JObj [("status", JStr "stream"); ("url", dl_link)]) dl_link 4096);
  vm_compute; try reflexivity; lia.
Defined.

(** C3 (corrected): a call creates, changes or removes no file other than
    its destination.  At the end of the call the destination holds no
    file, or the bytes written by a transfer issued during the call (a
    pre-existing file is removed first).  No transfer's file is deleted:
    every transfer of the call that opened the destination, however small
    or broken off, leaves a file there.  The destination is returned only
    when the file there exceeds 1024 bytes. *)
Theorem download_artifact_file nw cwd extract video_url output_filename s :
  let out := output_path cwd output_filename in
  let '(r, s') := download_audio_federated_with nw cwd extract video_url output_filename s in
  (forall q, q <> out -> disk s' !! q = disk s !! q) /\
  (exists new, requests s' = app (requests s) new /\
     (disk s' !! out = None \/
      exists link n, StreamGet link ∈ new /\ transfer_size (stream nw link) = Some n /\
                     disk s' !! out = Some n) /\
     (forall link n, StreamGet link ∈ new -> transfer_size (stream nw link) = Some n ->
                     is_Some (disk s' !! out))) /\
  (forall p, r = Ok (Some p) -> p = out /\ exists n, disk s' !! out = Some n /\ 1024 < n).
Proof.
  cbv zeta.
  pose proof (download_file_facts nw cwd extract video_url output_filename s) as H1.
  pose proof (download_file_log nw cwd extract video_url output_filename s) as H2.
  cbv zeta in H1, H2.
  destruct (download_audio_federated_with _ _ _ _ _ s) as [r s'].
  simpl in H2. destruct H1 as [Hq [_ Hv]].
  split; [exact Hq | split; [exact H2 | exact Hv]].
Qed.

(** C3: the first candidate writes 500 bytes; the file stays on disk while
    the ten later candidates are tried, and after the call.  Likewise a
    transfer that breaks off after 3000 bytes leaves its partial file. *)
Lemma download_small_file_kept :
  (let '(r, s') := download_audio_federated (net_only "https://cobalt.moskas.io" 500) "/srv"
                     "https://youtu.be/abc123XYZ9" "temp_audio" (initial_state []) in
   r = Raise (NameError "get_video_id") /\
   requests s' !! 1%nat = Some (StreamGet dl_link) /\
   length (requests s') = 12%nat /\
   disk s' !! "/srv/temp_audio.mp3" = Some 500%nat) /\
  (let '(r, s') := download_audio_federated (net_only_partial "https://cobalt.moskas.io" 3000)
                     "/srv" "https://youtu.be/abc123XYZ9" "temp_audio" (initial_state []) in
   r = Raise (NameError "get_video_id") /\
   requests s' !! 1%nat = Some (StreamGet dl_link) /\
   length (requests s') = 12%nat /\
   disk s' !! "/srv/temp_audio.mp3" = Some 3000%nat).
Proof. vm_compute. repeat split. Qed.

(** C4 (code_bug): [main.py] calls [get_video_id] but binds no such name,
    so the call raises [NameError] on each of the three example URLs
    instead of returning ["abc123XYZ9"], ["abc123XYZ9"] and [None]. *)
Theorem get_video_id_call_raises :
  lookup_global "get_video_id" = Raise (NameError "get_video_id") /\
  call_get_video_id "https://youtu.be/abc123XYZ9" = Raise (NameError "get_video_id") /\
  call_get_video_id "https://www.youtube.com/watch?v=abc123XYZ9&t=10"
    = Raise (NameError "get_video_id") /\
  call_get_video_id "https://example.com/video/1" = Raise (NameError "get_video_id").
Proof. vm_compute. repeat split. Qed.



(** C6 (corrected): every [/generate] job uses the one destination
    [os.path.join(os.getcwd(), "temp_audio.mp3")], whatever its URL and
    language: the acquisition returns only that path, and the job touches
    no other file. *)
Theorem generate_job_destination nw g cwd url language s :
  let P := output_path cwd "temp_audio" in
  let s' := (generate_notes_endpoint nw g cwd url language s).2 in
  (forall q, q <> P -> disk s' !! q = disk s !! q) /\
  (forall p s1, download_audio_federated nw cwd url "temp_audio" s = (Ok (Some p), s1) -> p = P).
Proof.
  cbv zeta.
  pose proof (download_file_facts nw cwd call_get_video_id url "temp_audio" s) as H.
  cbv zeta in H.
  unfold generate_notes_endpoint, download_audio_federated, pbind at 1.
  destruct (download_audio_federated_with _ _ _ _ _ s) as [r s1] eqn:E.
  destruct H as [Hq [_ Hv]].
  split.
  - intros q Hne.
    destruct r as [[af|]|e]; simpl; [|by apply Hq|by apply Hq].
    destruct (Hv af eq_refl) as [-> _].
    destruct (String.eqb _ ""); [by apply Hq|].
    unfold py_try.
    destruct (transcribe_audio g (output_path cwd "temp_audio")) as [[|c t]|];
      simpl; [by apply Hq| |by apply Hq].
    rewrite lookup_delete_ne by done. by apply Hq.
  - intros p s2 Hd. inversion Hd; subst. by destruct (Hv p eq_refl).
Qed.

(** C6: jobs for two different URLs acquire into the same file. *)
Lemma two_jobs_share_destination :
  (download_audio_federated (net_only "https://cobalt.moskas.io" 4096) "/srv"
     "https://youtu.be/aaaaaaaaaaa" "temp_audio" (initial_state [])).1
    = Ok (Some "/srv/temp_audio.mp3") /\
  (download_audio_federated (net_only "https://cobalt.moskas.io" 4096) "/srv"
     "https://youtu.be/bbbbbbbbbbb" "temp_audio" (initial_state [])).1
    = Ok (Some "/srv/temp_audio.mp3").
Proof. vm_compute. split; reflexivity. Qed.

(** C7 (code_bug): when transcription fails, the endpoint returns early
    (line 331) and the downloaded file stays on disk; only the success path
    (lines 337-338) removes it. *)
Theorem transcription_failure_keeps_artifact :
  let '(r, s') := generate_notes_endpoint (net_only "https://cobalt.moskas.io" 4096) ai_all_fail
                    "/srv" "https://youtu.be/abc123XYZ9" (py_lit "English") (initial_state []) in
  r = Ok (RError (py_lit "Transcription failed")) /\
  disk s' !! "/srv/temp_audio.mp3" = Some 4096%nat.
Proof. vm_compute. split; reflexivity. Qed.

(** C8 (code_bug): a 200 answer [{"picker": [], "audio": link}] makes
    [data.get("picker", [{}])[0]] raise [IndexError]; the attempt is
    abandoned and the address under [audio] is never downloaded. *)
Theorem picker_empty_skips_audio_address :
  cobalt_link picker_empty_body = Raise IndexError /\
  existsb is_stream_get
    (requests (download_audio_federated net_picker_empty "/srv" "https://youtu.be/abc123XYZ9"
                 "temp_audio" (initial_state [])).2) = false.
Proof. vm_compute. split; reflexivity. Qed.

(** C9 (corrected): when the download and the transcription succeed and
    every model of [MODEL_PRIORITY_LIST] fails on the notes prompt, the
    endpoint answers with a success object whose markdown is the fixed
    "overloaded" message. *)
Theorem generate_endpoint_all_models_fail nw g cwd url language s p s1 t :
  download_audio_federated nw cwd url "temp_audio" s = (Ok (Some p), s1) ->
  transcribe_audio g p = Some t ->
  t <> [] ->
  (forall m, In m MODEL_PRIORITY_LIST ->
     exists e, generate_content g m (PText (notes_prompt t language)) = Raise e) ->
  (generate_notes_endpoint nw g cwd url language s).1
    = Ok (RSuccess (Some overloaded_message) t).
Proof.
  intros Hd Ht Hne Hfail.
  pose proof (download_valid_on_success nw cwd call_get_video_id url "temp_audio" s p s1 Hd)
    as [-> _].
  unfold generate_notes_endpoint, pbind at 1. rewrite Hd.
  destruct (String.eqb (output_path cwd "temp_audio") "") eqn:Ee.
  { apply String.eqb_eq in Ee. by apply output_path_temp_audio_nonempty in Ee. }
  unfold py_try. rewrite Ht.
  destruct t as [|c t']; [done|].
  unfold generate_study_notes, get_working_gemini_response, MODEL_PRIORITY_LIST.
  destruct (Hfail "gemini-2.0-flash") as [e1 ->]; [simpl; tauto|].
  destruct (Hfail "gemini-2.0-flash-lite") as [e2 ->]; [simpl; tauto|].
  destruct (Hfail "gemini-1.5-flash") as [e3 ->]; [simpl; tauto|].
  destruct (Hfail "gemini-1.5-pro") as [e4 ->]; [simpl; tauto|].
  reflexivity.
Qed.

Lemma generate_endpoint_all_models_fail_witness :
  (generate_notes_endpoint (net_only "https://cobalt.moskas.io" 4096)
     (ai_transcript_only (py_lit "hello world")) "/srv" "https://youtu.be/abc123XYZ9"
     (py_lit "English") (initial_state [])).1
    = Ok (RSuccess (Some overloaded_message) (py_lit "hello world")).
Proof.
  apply (generate_endpoint_all_models_fail (net_only "https://cobalt.moskas.io" 4096)
           (ai_transcript_only (py_lit "hello world")) "/srv" "https://youtu.be/abc123XYZ9"
           (py_lit "English") (initial_state []) "/srv/temp_audio.mp3"
           (download_audio_federated (net_only "https://cobalt.moskas.io" 4096) "/srv"
              "https://youtu.be/abc123XYZ9" "temp_audio" (initial_state [])).2).
  - vm_compute. reflexivity.
  - reflexivity.
  - vm_compute. discriminate.
  - intros m _. exists HTTPError. reflexivity.
Defined.

(** C9: the same situation at a concrete input, against the claim's
    "could not generate" error. *)
Lemma all_models_fail_reported_as_success :
  (generate_notes_endpoint (net_only "https://cobalt.moskas.io" 4096)
     (ai_transcript_only (py_lit "hello world")) "/srv" "https://youtu.be/abc123XYZ9"
     (py_lit "English") (initial_state [])).1
    = Ok (RSuccess (Some overloaded_message) (py_lit "hello world")).
Proof. vm_compute. reflexivity. Qed.

(** C10 (confirmed): for non-empty transcripts that agree on their first
    50,000 code points, [generate_study_notes] builds the same prompt and
    returns the same notes; the word count and [target_length] play no
    part. *)
Theorem generate_study_notes_depends_on_prefix g t1 t2 language :
  t1 <> [] -> t2 <> [] -> take 50000 t1 = take 50000 t2 ->
  notes_prompt t1 language = notes_prompt t2 language /\
  generate_study_notes g t1 language = generate_study_notes g t2 language.
Proof.
  intros H1 H2 Htake.
  assert (Hp : notes_prompt t1 language = notes_prompt t2 language)
    by (unfold notes_prompt; by rewrite Htake).
  split; [done|].
  unfold generate_study_notes.
  destruct t1 as [|a t1']; [done|]. destruct t2 as [|b t2']; [done|].
  by rewrite Hp.
Qed.

Lemma generate_study_notes_depends_on_prefix_witness :
  notes_prompt (app (repeat 97%Z 50000) [98%Z]) (py_lit "English")
    = notes_prompt (app (repeat 97%Z 50000) [99%Z]) (py_lit "English") /\
  generate_study_notes ai_all_fail (app (repeat 97%Z 50000) [98%Z]) (py_lit "English")
    = generate_study_notes ai_all_fail (app (repeat 97%Z 50000) [99%Z]) (py_lit "English").
Proof.
  apply generate_study_notes_depends_on_prefix.
  - intros H. apply app_eq_nil in H as [_ H]. discriminate H.
  - intros H. apply app_eq_nil in H as [_ H]. discriminate H.
  - rewrite !take_app, !repeat_length, Nat.sub_diag. reflexivity.
Defined.

(* ================================================================== *)
(** * Further properties of [main.py] *)

(** ** Helpers *)

Lemma get_working_gemini_response_all_fail g p :
  (forall m, In m MODEL_PRIORITY_LIST -> exists e, generate_content g m p = Raise e) ->
  get_working_gemini_response g p = overloaded_message.
Proof.
  unfold get_working_gemini_response. generalize MODEL_PRIORITY_LIST as l.
  induction l as [|x l IH]; intros Hall; simpl; [done|].
  destruct (Hall x (or_introl eq_refl)) as [e ->].
  apply IH. intros m Hin. apply Hall. by right.
Qed.

Lemma list_ascii_of_string_app (a b : string) :
  list_ascii_of_string (a ++ b) = app (list_ascii_of_string a) (list_ascii_of_string b).
Proof. induction a as [|c a IH]; simpl; [done | by rewrite IH]. Qed.

Lemma rstrip_slash_snoc (i : string) : rstrip_slash (i ++ "/") = rstrip_slash i.
Proof.
  unfold rstrip_slash. rewrite list_ascii_of_string_app, rev_app_distr. reflexivity.
Qed.

Lemma dict_get_absent fs k d : ~ In k (map fst fs) -> dict_get fs k d = d.
Proof.
  intros Hk. unfold dict_get.
  destruct (List.find _ _) as [[k' v]|] eqn:E; [|done].
  apply find_some in E as [Hin Heq]. simpl in Heq.
  apply String.eqb_eq in Heq as ->. exfalso. apply Hk.
  apply in_rev in Hin. apply (in_map fst) in Hin. done.
Qed.

Lemma call_get_video_id_raises url : call_get_video_id url = Raise (NameError "get_video_id").
Proof. reflexivity. Qed.

(** As [main.py] is written, a download ends with the destination path or
    with [NameError]. *)
Lemma download_main_result nw cwd url f s :
  (download_audio_federated nw cwd url f s).1 = Ok (Some (output_path cwd f)) \/
  (download_audio_federated nw cwd url f s).1 = Raise (NameError "get_video_id").
Proof.
  pose proof (download_valid_on_success nw cwd call_get_video_id url f s) as Hv.
  pose proof (download_raise_comes_from_extract nw cwd call_get_video_id url f s) as Hr.
  unfold download_audio_federated.
  destruct (download_audio_federated_with nw cwd call_get_video_id url f s)
    as [[[p|]|e] s'] eqn:E; simpl.
  - left. by destruct (Hv p s' eq_refl) as [-> _].
  - exfalso. revert E. rewrite download_with_unfold. cbv zeta. unfold pbind at 1.
    destruct (try_each_never_raises (cobalt_attempt nw (output_path cwd f) url)
                (cobalt_instances (prologue_state cwd f s)) (prologue_state cwd f s))
      as (r & s1 & E1).
    rewrite E1. destruct r; [discriminate|].
    unfold strategy_piped, pbind, lift. rewrite call_get_video_id_raises. discriminate.
  - right. by rewrite <- (Hr e s' eq_refl).
Qed.

Lemma generate_study_notes_nonempty g t language :
  t <> [] ->
  generate_study_notes g t language
    = Some (get_working_gemini_response g (PText (notes_prompt t language))).
Proof. destruct t; [done | reflexivity]. Qed.

(** The endpoint after a download and a transcription that succeed. *)
Lemma generate_endpoint_transcribed nw g cwd url language s s1 t :
  download_audio_federated nw cwd url "temp_audio" s
    = (Ok (Some (output_path cwd "temp_audio")), s1) ->
  transcribe_audio g (output_path cwd "temp_audio") = Some t ->
  t <> [] ->
  (generate_notes_endpoint nw g cwd url language s).1
    = Ok (RSuccess (generate_study_notes g t language) t).
Proof.
  intros Hd Ht Hne.
  unfold generate_notes_endpoint, pbind at 1. rewrite Hd.
  rewrite (proj2 (String.eqb_neq _ _) (output_path_temp_audio_nonempty cwd)).
  unfold py_try. rewrite Ht.
  destruct t as [|c t']; [done | reflexivity].
Qed.

(** The endpoint after a download that succeeds and a transcription that
    gives [None] or the empty string. *)
Lemma generate_endpoint_untranscribed nw g cwd url language s s1 :
  download_audio_federated nw cwd url "temp_audio" s
    = (Ok (Some (output_path cwd "temp_audio")), s1) ->
  match transcribe_audio g (output_path cwd "temp_audio") with
  | Some (_ :: _) => False
  | _ => True
  end ->
  (generate_notes_endpoint nw g cwd url language s).1
    = Ok (RError (py_lit "Transcription failed")).
Proof.
  intros Hd Ht.
  unfold generate_notes_endpoint, pbind at 1. rewrite Hd.
  rewrite (proj2 (String.eqb_neq _ _) (output_path_temp_audio_nonempty cwd)).
  unfold py_try.
  destruct (transcribe_audio g (output_path cwd "temp_audio")) as [[|c t]|];
    [reflexivity | contradiction | reflexivity].
Qed.

(** An exception raised by the download leaves the endpoint. *)
Lemma generate_endpoint_download_raises nw g cwd url language s s1 e :
  download_audio_federated nw cwd url "temp_audio" s = (Raise e, s1) ->
  (generate_notes_endpoint nw g cwd url language s).1 = Raise e.
Proof. intros Hd. unfold generate_notes_endpoint, pbind at 1. by rewrite Hd. Qed.

(** ** Properties *)

(** [get_working_gemini_response] returns the text of a model of
    [MODEL_PRIORITY_LIST], or the fixed "overloaded" message, and the
    latter only when every model raised. *)
Theorem get_working_gemini_response_outcome g p :
  (exists m, In m MODEL_PRIORITY_LIST /\
     generate_content g m p = Ok (get_working_gemini_response g p)) \/
  (get_working_gemini_response g p = overloaded_message /\
   forall m, In m MODEL_PRIORITY_LIST -> exists e, generate_content g m p = Raise e).
Proof.
  unfold get_working_gemini_response. generalize MODEL_PRIORITY_LIST as l.
  induction l as [|x l IH]; simpl.
  - right. split; [done | intros m []].
  - destruct (generate_content g x p) as [t|e] eqn:E.
    + left. exists x. split; [by left | done].
    + destruct IH as [[m [Hin Hm]]|[Ho Hall]].
      * left. exists m. split; [by right | done].
      * right. split; [done|]. intros m [<-|Hin]; [by exists e | by apply Hall].
Qed.

(** The models are tried in the order of [MODEL_PRIORITY_LIST]: when all
    models before [m] raise and [m] answers, its answer is returned. *)
Theorem get_working_gemini_response_first_success g p pre m post text :
  MODEL_PRIORITY_LIST = app pre (m :: post) ->
  (forall m', In m' pre -> exists e, generate_content g m' p = Raise e) ->
  generate_content g m p = Ok text ->
  get_working_gemini_response g p = text.
Proof.
  intros Hl Hpre Hm. unfold get_working_gemini_response. rewrite Hl. clear Hl.
  revert Hpre. induction pre as [|x pre IH]; intros Hpre; simpl.
  - by rewrite Hm.
  - destruct (Hpre x (or_introl eq_refl)) as [e ->].
    apply IH. intros m' Hin. apply Hpre. by right.
Qed.

Lemma get_working_gemini_response_first_success_witness :
  get_working_gemini_response (ai_only_model "gemini-1.5-flash" (py_lit "notes")) (PText [])
    = py_lit "notes".
Proof.
  apply (get_working_gemini_response_first_success
           (ai_only_model "gemini-1.5-flash" (py_lit "notes")) (PText [])
           ["gemini-2.0-flash"; "gemini-2.0-flash-lite"] "gemini-1.5-flash" ["gemini-1.5-pro"]).
  - reflexivity.
  - intros m' [<-|[<-|[]]]; exists HTTPError; reflexivity.
  - reflexivity.
Defined.

(** [transcribe_audio] gives [None] exactly when Groq raises and the
    Gemini backup fails: its upload raises or the file ends in state
    ["FAILED"]. *)
Theorem transcribe_audio_none g p :
  transcribe_audio g p = None <->
  (exists e, groq_transcribe g p = Raise e) /\
  ((exists e, gemini_upload g p = Raise e) \/ exists f, gemini_upload g p = Ok (f, "FAILED")).
Proof.
  unfold transcribe_audio, transcribe_with_gemini.
  destruct (groq_transcribe g p) as [t|e1].
  { split; [discriminate | intros [[e H] _]; discriminate]. }
  destruct (gemini_upload g p) as [[f st]|e2].
  - destruct (String.eqb st "FAILED") eqn:Est.
    + apply String.eqb_eq in Est as ->.
      split; [intros _; split; [by exists e1 | right; by exists f] | done].
    + split; [discriminate|]. intros [_ [[e H]|[f' H]]]; [discriminate|].
      injection H as _ ->. by rewrite String.eqb_refl in Est.
  - split; [intros _; split; [by exists e1 | left; by exists e2] | done].
Qed.

(** When Groq raises, the Gemini upload succeeds and every model raises,
    the "overloaded" message becomes the transcript: the endpoint reports
    success with that message as transcript and as notes. *)
Theorem generate_endpoint_placeholder_transcript nw g cwd url language s p s1 e f st :
  download_audio_federated nw cwd url "temp_audio" s = (Ok (Some p), s1) ->
  groq_transcribe g p = Raise e ->
  gemini_upload g p = Ok (f, st) ->
  st <> "FAILED" ->
  (forall m pr, exists e', generate_content g m pr = Raise e') ->
  (generate_notes_endpoint nw g cwd url language s).1
    = Ok (RSuccess (Some overloaded_message) overloaded_message).
Proof.
  intros Hd Hg Hu Hst Hall.
  pose proof (download_valid_on_success nw cwd call_get_video_id url "temp_audio" s p s1 Hd)
    as [-> _].
  assert (Hw : forall pr, get_working_gemini_response g pr = overloaded_message).
  { intros pr. apply get_working_gemini_response_all_fail. intros m _. apply Hall. }
  assert (Ht : transcribe_audio g (output_path cwd "temp_audio") = Some overloaded_message).
  { unfold transcribe_audio, transcribe_with_gemini. rewrite Hg, Hu.
    apply String.eqb_neq in Hst. by rewrite Hst, Hw. }
  assert (Hne : overloaded_message <> []) by (intros H; vm_compute in H; discriminate H).
  rewrite (generate_endpoint_transcribed nw g cwd url language s s1 overloaded_message Hd Ht Hne).
  by rewrite (generate_study_notes_nonempty g _ language Hne), Hw.
Qed.

Lemma generate_endpoint_placeholder_transcript_witness :
  (generate_notes_endpoint (net_only "https://cobalt.moskas.io" 4096) ai_upload_only "/srv"
     "https://youtu.be/abc123XYZ9" (py_lit "English") (initial_state [])).1
    = Ok (RSuccess (Some overloaded_message) overloaded_message).
Proof.
  apply (generate_endpoint_placeholder_transcript (net_only "https://cobalt.moskas.io" 4096)
           ai_upload_only "/srv" "https://youtu.be/abc123XYZ9" (py_lit "English")
           (initial_state []) "/srv/temp_audio.mp3"
           (download_audio_federated (net_only "https://cobalt.moskas.io" 4096) "/srv"
              "https://youtu.be/abc123XYZ9" "temp_audio" (initial_state [])).2
           HTTPError "files/abc" "ACTIVE").
  - vm_compute. reflexivity.
  - reflexivity.
  - reflexivity.
  - discriminate.
  - intros m pr. exists HTTPError. reflexivity.
Defined.

(** As [main.py] is written, [download_audio_federated] never returns
    [None]: it returns its destination path, or raises
    [NameError("get_video_id")]. *)
Theorem download_audio_federated_never_none nw cwd url f s :
  (download_audio_federated nw cwd url f s).1 = Ok (Some (output_path cwd f)) \/
  (download_audio_federated nw cwd url f s).1 = Raise (NameError "get_video_id").
Proof. exact (download_main_result nw cwd url f s). Qed.

(** The [/generate] endpoint ends in one of three ways: [NameError]
    escapes from the download, the "Transcription failed" error, or a
    success whose transcript is non-empty and whose markdown is not
    [None]. "Download failed" and the [except] branch are never reached. *)
Theorem generate_endpoint_outcomes nw g cwd url language s :
  let r := (generate_notes_endpoint nw g cwd url language s).1 in
  r = Raise (NameError "get_video_id") \/
  r = Ok (RError (py_lit "Transcription failed")) \/
  exists notes t, t <> [] /\ r = Ok (RSuccess (Some notes) t).
Proof.
  cbv zeta.
  destruct (download_audio_federated nw cwd url "temp_audio" s) as [r1 s1] eqn:Ed.
  destruct (download_main_result nw cwd url "temp_audio" s) as [H|H];
    rewrite Ed in H; simpl in H; subst r1.
  - destruct (transcribe_audio g (output_path cwd "temp_audio")) as [[|c t]|] eqn:Et.
    + right; left. apply (generate_endpoint_untranscribed nw g cwd url language s s1 Ed).
      by rewrite Et.
    + right; right. eexists _, (c :: t). split; [done|].
      rewrite (generate_endpoint_transcribed nw g cwd url language s s1 (c :: t) Ed Et)
        by done.
      by rewrite generate_study_notes_nonempty.
    + right; left. apply (generate_endpoint_untranscribed nw g cwd url language s s1 Ed).
      by rewrite Et.
  - left. by apply (generate_endpoint_download_raises nw g cwd url language s s1).
Qed.

(** Whatever the outcome of [/generate], a reported success has removed
    the audio file, while "Transcription failed" leaves it on disk with
    more than 1024 bytes. *)
Theorem generate_endpoint_artifact_cleanup nw g cwd url language s :
  let P := output_path cwd "temp_audio" in
  let '(r, s') := generate_notes_endpoint nw g cwd url language s in
  (forall notes t, r = Ok (RSuccess notes t) -> disk s' !! P = None) /\
  (r = Ok (RError (py_lit "Transcription failed")) -> exists n, disk s' !! P = Some n /\ 1024 < n).
Proof.
  cbv zeta. unfold generate_notes_endpoint, pbind at 1.
  pose proof (download_valid_on_success nw cwd call_get_video_id url "temp_audio" s) as Hv.
  unfold download_audio_federated.
  destruct (download_audio_federated_with _ _ _ _ _ s) as [[[p|]|e] s1].
  - destruct (Hv p s1 eq_refl) as [-> [n [Hn Hsz]]].
    rewrite (proj2 (String.eqb_neq _ _) (output_path_temp_audio_nonempty cwd)).
    unfold py_try.
    destruct (transcribe_audio g (output_path cwd "temp_audio")) as [[|c t]|]; simpl.
    + split; [discriminate | intros _; by exists n].
    + split; [intros ?? _; apply lookup_delete_eq | discriminate].
    + split; [discriminate | intros _; by exists n].
  - simpl. split; [discriminate|]. intros H. injection H as H. vm_compute in H. discriminate H.
  - simpl. split; discriminate.
Qed.

(** The requests of one call of [download_audio_federated], in order:
    for each mirror of a prefix of the shuffled [COBALT_INSTANCES], one
    POST to [mirror.rstrip("/") + "/api/json"] with the Cobalt payload,
    possibly followed by one streamed GET; no other request.  Hence at most
    two requests per entry of [COBALT_INSTANCES]. *)
Theorem download_request_bound nw cwd url f s :
  exists pre blocks,
    pre `prefix_of` (py_shuffle (cobalt_instances s) (rng s)).1 /\
    Forall2 (cobalt_request_block url) pre blocks /\
    requests (download_audio_federated nw cwd url f s).2 = app (requests s) (concat blocks) /\
    (length (concat blocks) <= 2 * length (cobalt_instances s))%nat.
Proof.
  unfold download_audio_federated. rewrite download_with_unfold. cbv zeta.
  set (s1 := prologue_state cwd f s).
  assert (Hc : cobalt_instances s1 = (py_shuffle (cobalt_instances s) (rng s)).1)
    by (subst s1; unfold prologue_state; simpl; done).
  assert (Hr : requests s1 = requests s) by (subst s1; done).
  destruct (try_each_blocks (cobalt_attempt nw (output_path cwd f) url) (cobalt_request_block url)
              (cobalt_attempt_block nw (output_path cwd f) url) (cobalt_instances s1) s1)
    as (pre & bs & Hpre & Hf & Hn).
  exists pre, bs. split; [by rewrite <- Hc|]. split; [done|]. split.
  - unfold pbind at 1.
    destruct (try_each _ _ s1) as [[[p|]|e] s2]; simpl in Hn |- *; by rewrite <- Hr.
  - pose proof (concat_blocks_length url pre bs Hf) as Hl.
    apply prefix_length in Hpre. rewrite Hc in Hpre.
    rewrite (Permutation_length (py_shuffle_perm (cobalt_instances s) (rng s))) in Hpre.
    lia.
Qed.

(** The address probe of line 120 raises only when the data is not a
    dict, or when ["url"] is falsy and the ["picker"] value is not a list
    whose first element is a dict. *)
Theorem cobalt_link_raises_only_on_picker data e :
  cobalt_link data = Raise e ->
  (forall fs, data <> JObj fs) \/
  exists fs, data = JObj fs /\ truthy (dict_get fs "url" JNull) = false /\
    forall pfs rest, dict_get fs "picker" (JArr [JObj []]) <> JArr (JObj pfs :: rest).
Proof.
  destruct data as [| | | | |fs]; simpl; intros H;
    try (left; intros ? [=]; fail).
  right. exists fs. split; [done|].
  destruct (truthy (dict_get fs "url" JNull)); [discriminate|]. split; [done|].
  intros pfs rest Hp. rewrite Hp in H. simpl in H.
  destruct (truthy _); discriminate.
Qed.

Lemma cobalt_link_raises_only_on_picker_witness :
  exists fs, picker_empty_body = JObj fs /\ truthy (dict_get fs "url" JNull) = false /\
    forall pfs rest, dict_get fs "picker" (JArr [JObj []]) <> JArr (JObj pfs :: rest).
Proof.
  destruct (cobalt_link_raises_only_on_picker picker_empty_body IndexError) as [H|H].
  - reflexivity.
  - exfalso. exact (H _ eq_refl).
  - exact H.
Defined.

(** A dict without a ["picker"] key never makes the probe raise: the
    default [[{}]] is used, and the address is ["url"] when it is truthy,
    ["audio"] otherwise (or [None] when absent). *)
Theorem cobalt_link_without_picker fs :
  ~ In "picker" (map fst fs) ->
  cobalt_link (JObj fs) =
    Ok (if truthy (dict_get fs "url" JNull) then dict_get fs "url" JNull
        else dict_get fs "audio" JNull).
Proof.
  intros Hp. simpl.
  destruct (truthy (dict_get fs "url" JNull)); [done|].
  rewrite dict_get_absent by done. reflexivity.
Qed.

Lemma cobalt_link_without_picker_witness :
  cobalt_link (JObj [("status", JStr "tunnel"); ("audio", dl_link)]) = Ok dl_link.
Proof.
  apply (cobalt_link_without_picker [("status", JStr "tunnel"); ("audio", dl_link)]).
  intros [H|[H|[]]]; discriminate H.
Defined.

(** The Piped stream selection of line 164 returns the first stream whose
    ["mimeType"] starts with ["audio"]: every stream before it is a dict
    with a non-audio ["mimeType"]. *)
Theorem first_audio_selects_first_audio_stream l t :
  first_audio l = Ok (Some t) ->
  exists pre post fs m, l = app pre (t :: post) /\ t = JObj fs /\
    dict_get fs "mimeType" (JStr "") = JStr m /\ String.prefix "audio" m = true /\
    Forall (fun x => exists xfs xm, x = JObj xfs /\
              dict_get xfs "mimeType" (JStr "") = JStr xm /\
              String.prefix "audio" xm = false) pre.
Proof.
  induction l as [|x l IH]; simpl; [discriminate|].
  destruct x as [| | | | |fs]; try discriminate.
  destruct (dict_get fs "mimeType" (JStr "")) as [| | |m| |] eqn:Em; try discriminate.
  destruct (String.prefix "audio" m) eqn:Ep.
  - intros [= <-]. exists [], l, fs, m. repeat split; done.
  - intros H. destruct (IH H) as (pre & post & fs' & m' & -> & Ht & Hm & Hp & Hf).
    exists (JObj fs :: pre), post, fs', m'. repeat split; try done.
    constructor; [by exists fs, m | done].
Qed.

Lemma first_audio_selects_first_audio_stream_witness :
  exists pre post fs m,
    [JObj [("mimeType", JStr "video/mp4")]; JObj [("mimeType", JStr "audio/mp4"); ("url", dl_link)]]
      = app pre (JObj [("mimeType", JStr "audio/mp4"); ("url", dl_link)] :: post) /\
    JObj [("mimeType", JStr "audio/mp4"); ("url", dl_link)] = JObj fs /\
    dict_get fs "mimeType" (JStr "") = JStr m /\ String.prefix "audio" m = true /\
    Forall (fun x => exists xfs xm, x = JObj xfs /\
              dict_get xfs "mimeType" (JStr "") = JStr xm /\
              String.prefix "audio" xm = false) pre.
Proof.
  apply first_audio_selects_first_audio_stream. reflexivity.
Defined.

(** A mirror entry with a trailing slash is used exactly like the entry
    without it ([instance.rstrip("/")], lines 112 and 154). *)
Theorem mirror_trailing_slash_ignored nw out video_url video_id instance :
  cobalt_attempt nw out video_url (instance ++ "/") = cobalt_attempt nw out video_url instance /\
  piped_attempt nw out video_id (instance ++ "/") = piped_attempt nw out video_id instance.
Proof. unfold cobalt_attempt, piped_attempt. by rewrite !rstrip_slash_snoc. Qed.

(** The notes prompt has 443 code points besides the language and the
    transcript, of which at most 50,000 code points are included. *)
Theorem notes_prompt_length t l :
  length (notes_prompt t l) = (443 + length l + Nat.min 50000 (length t))%nat.
Proof.
  unfold notes_prompt. rewrite !length_app, length_take.
  generalize (Nat.min 50000 (length t)) as y. intros y.
  repeat match goal with
  | |- context [length (py_lit ?a)] =>
      let n := eval vm_compute in (length (py_lit a)) in
      change (length (py_lit a)) with n
  end.
  lia.
Qed.

(** The chat prompt has 229 code points besides the question and the
    transcript, of which at most 20,000 code points are included. *)
Theorem chat_prompt_length t q :
  length (chat_prompt t q) = (229 + Nat.min 20000 (length t) + length q)%nat.
Proof.
  unfold chat_prompt. rewrite !length_app, length_take.
  generalize (Nat.min 20000 (length t)) as y. intros y.
  repeat match goal with
  | |- context [length (py_lit ?a)] =>
      let n := eval vm_compute in (length (py_lit a)) in
      change (length (py_lit a)) with n
  end.
  lia.
Qed.

(** The [/chat] answer depends on the transcript only through its first
    20,000 code points. *)
Theorem chat_endpoint_depends_on_prefix g q t1 t2 :
  take 20000 t1 = take 20000 t2 -> chat_endpoint g q t1 = chat_endpoint g q t2.
Proof.
  intros H. unfold chat_endpoint, chat_with_video, chat_prompt. rewrite H.
  destruct q as [|c q]; [done|].
  destruct t1 as [|a t1], t2 as [|b t2]; try done; simpl in H; discriminate H.
Qed.

Lemma chat_endpoint_depends_on_prefix_witness :
  chat_endpoint ai_all_fail (py_lit "What is it?") (app (repeat 120%Z 20000) [1%Z])
    = chat_endpoint ai_all_fail (py_lit "What is it?") (app (repeat 120%Z 20000) [2%Z]).
Proof.
  apply chat_endpoint_depends_on_prefix.
  rewrite !take_app, !repeat_length, Nat.sub_diag. reflexivity.
Defined.
